(** * Mercantile Bank scraper: a model of [src/Scraper.js]

    The script drives a Chrome instance through Puppeteer.  Everything
    Puppeteer, [console] and [process] do is outside the repository, so the
    model makes it explicit:

    - an environment ([Env]) answers every awaited Puppeteer call with
      success or with the value it throws, and lists the page events
      (console messages, requests, ...) that fire while the call is pending;
    - every call, every console line, every screenshot written and the
      process exit are recorded, in order, in a trace of [Event]s;
    - the [Scraper] object ([this]) is threaded as explicit state;
    - a computation ends normally, by a thrown value, or by [process.exit],
      which stops the program on the spot: no [catch] and no [finally]
      block runs after it. *)

From Stdlib Require Import ZArith List String Ascii Bool Lia.
From stdpp Require Import base option list strings gmap pretty.

Local Open Scope Z_scope.

(** ** Values thrown and caught *)

(** What a [catch (error)] clause can receive: an [Error] object, with its
    [name] and [message], or any other value, kept as [String(error)]. *)
Inductive Thrown : Type :=
  | ErrorObj (name message : string)
  | Raw (text : string).

(** [error instanceof Error ? error.message : String(error)] *)
Definition error_text (error : Thrown) : string :=
  match error with
  | ErrorObj _ message => message
  | Raw text => text
  end.

(** How [console.error] prints a caught value handed to it as an argument. *)
Definition show_thrown (error : Thrown) : string :=
  match error with
  | ErrorObj name message => name +:+ ": " +:+ message
  | Raw text => text
  end.

(** ** Puppeteer calls *)

(** The object handed to [puppeteer.launch]. *)
Record LaunchOptions : Type := mkLaunchOptions {
  lo_headless : bool;
  lo_defaultViewport : option (Z * Z);      (* [null] is [None] *)
  lo_args : list string;
  lo_devtools : option bool;                (* absent key is [None] *)
  lo_slowMo : option Z
}.

(** Every call the script makes on Puppeteer, with the arguments it passes,
    and the timer [main] awaits.  [Type_]'s text is a credential read from
    [process.env], which may be [undefined]. *)
Inductive Op : Type :=
  | Launch (options : LaunchOptions)
  | NewPage
  | SetDefaultTimeout (ms : Z)
  | PageOn (event : string)
  | Goto (url waitUntil : string) (timeout : Z)
  | Type_ (selector : string) (text : option string) (delay : Z)
  | Click (selector : string)
  | WaitForNavigation (waitUntil : string)
  | Screenshot (path : string)
  | BrowserClose
  | Sleep (ms : Z).

(** Events a page emits while a call is pending; the debug listeners of
    [initialize] print them. *)
Inductive PageEvent : Type :=
  | EvConsole (text : string)
  | EvPageError (message : string)
  | EvError (message : string)
  | EvRequest (method url : string)
  | EvResponse (status : Z) (url : string).

Definition event_name (ev : PageEvent) : string :=
  match ev with
  | EvConsole _ => "console"
  | EvPageError _ => "pageerror"
  | EvError _ => "error"
  | EvRequest _ _ => "request"
  | EvResponse _ _ => "response"
  end.

(** What the page shows: nothing yet, the login form, or what the remote
    site serves once the submitted form has settled.  A rejected login still
    navigates: the form is rendered again with a message. *)
Inductive Landing : Type :=
  | Blank
  | LoginForm
  | Dashboard
  | LoginRejected.

(** The world outside the script. *)
Record Env : Type := mkEnv {
  fails : Op -> option Thrown;           (* [Some e]: the call throws [e] *)
  page_events : Op -> list PageEvent;    (* fired while the call is pending *)
  masked : string -> bool;               (* inputs rendered as dots *)
  stock_timeout : Z;                     (* a new page's default timeout *)
  after_submit : Landing                 (* where the site lands after submit *)
}.

(** ** The objects the script holds *)

Record Browser : Type := mkBrowser {
  running : bool
}.

Record Page : Type := mkPage {
  defaultTimeout : Z;
  listeners : list string;               (* event names with a handler *)
  fields : list (string * string);       (* selector, text typed so far *)
  showing : Landing
}.

(** The fields of a [Scraper] instance. *)
Record Scraper : Type := mkScraper {
  browser : option Browser;
  page : option Page;
  debug : bool;
  headless : bool
}.

(** What the program leaves behind, in order. *)
Inductive Event : Type :=
  | Call (op : Op)
  | ConsoleLog (args : list string)
  | ConsoleError (args : list string)
  | Capture (path : string) (visible : list (string * string))
  | ProcessExit (code : Z).

(** ** Computations *)

Inductive Outcome (A : Type) : Type :=
  | Ok (a : A)
  | Throw (error : Thrown)
  | Exit (code : Z).
Arguments Ok {A} a.
Arguments Throw {A} error.
Arguments Exit {A} code.

Record Res (A : Type) : Type := mkRes {
  outcome : Outcome A;
  final : Scraper;
  trace : list Event
}.
Arguments mkRes {A} _ _ _.
Arguments outcome {A} _.
Arguments final {A} _.
Arguments trace {A} _.

Definition M (A : Type) : Type := Env -> Scraper -> Res A.

Definition ret {A} (a : A) : M A :=
  fun _ this => mkRes (Ok a) this [].

(** What happened before [r] is put in front of its trace. *)
Definition after {A} (tr : list Event) (r : Res A) : Res A :=
  match r with
  | mkRes o this' tr' => mkRes o this' (tr ++ tr')
  end.

Definition bind {A B} (m : M A) (k : A -> M B) : M B :=
  fun env this =>
    match m env this with
    | mkRes (Ok a) this' tr => after tr (k a env this')
    | mkRes (Throw error) this' tr => mkRes (Throw error) this' tr
    | mkRes (Exit code) this' tr => mkRes (Exit code) this' tr
    end.

Notation "x <- m ;; k" := (bind m (fun x => k))
  (at level 100, m at next level, right associativity).
Notation "m ;; k" := (bind m (fun _ => k))
  (at level 100, right associativity).

Definition throw {A} (error : Thrown) : M A :=
  fun _ this => mkRes (Throw error) this [].

Definition emit (ev : Event) : M unit :=
  fun _ this => mkRes (Ok tt) this [ev].

Definition get_this : M Scraper :=
  fun _ this => mkRes (Ok this) this [].

Definition put_this (this : Scraper) : M unit :=
  fun _ _ => mkRes (Ok tt) this [].

Definition ask : M Env :=
  fun env this => mkRes (Ok env) this [].

(** [process.exit(code)]: nothing of the program runs afterwards. *)
Definition process_exit {A} (code : Z) : M A :=
  fun _ this => mkRes (Exit code) this [ProcessExit code].

(** [try { body } catch (error) { handler }] *)
Definition try_catch {A} (body : M A) (handler : Thrown -> M A) : M A :=
  fun env this =>
    match body env this with
    | mkRes (Throw error) this' tr => after tr (handler error env this')
    | r => r
    end.

(** [try { body } finally { finalizer }]: the finalizer runs when the body
    returns or throws, and the body's outcome stands unless the finalizer
    itself throws or exits.  A body ended by [process.exit] never reaches
    it. *)
Definition try_finally {A} (body : M A) (finalizer : M unit) : M A :=
  fun env this =>
    match body env this with
    | mkRes (Exit code) this' tr => mkRes (Exit code) this' tr
    | mkRes o this' tr =>
        match finalizer env this' with
        | mkRes (Ok _) this'' tr' => mkRes o this'' (tr ++ tr')
        | mkRes (Throw error) this'' tr' => mkRes (Throw error) this'' (tr ++ tr')
        | mkRes (Exit code) this'' tr' => mkRes (Exit code) this'' (tr ++ tr')
        end
    end.

Definition console_log (args : list string) : M unit := emit (ConsoleLog args).
Definition console_error (args : list string) : M unit := emit (ConsoleError args).

(** ** The [Scraper] class *)

Record ScraperOptions : Type := mkOptions {
  opt_debug : option bool;
  opt_headless : option bool
}.

(** [log(...args)] *)
Definition log (args : list string) : M unit :=
  this <- get_this ;;
  if debug this then console_log ("[DEBUG]" :: args) else ret tt.

(** [constructor(options = {})] *)
Definition constructor (options : ScraperOptions) : M unit :=
  put_this {| browser := None;
              page := None;
              debug := match opt_debug options with
                       | Some d => d
                       | None => false
                       end;
              headless := match opt_headless options with
                          | Some false => false
                          | _ => true
                          end |} ;;
  log ["Debug mode enabled"].

(** The five handlers [initialize] registers with [page.on]. *)
Definition handler_text (ev : PageEvent) : string :=
  match ev with
  | EvConsole text => "CONSOLE: " +:+ text
  | EvPageError message => "PAGE ERROR: " +:+ message
  | EvError message => "ERROR: " +:+ message
  | EvRequest method url => "REQUEST: " +:+ method +:+ " " +:+ url
  | EvResponse status url => "RESPONSE: " +:+ pretty status +:+ " " +:+ url
  end.

Definition handle (ev : PageEvent) : M unit :=
  this <- get_this ;;
  match page this with
  | Some p =>
      if existsb (String.eqb (event_name ev)) (listeners p)
      then log [handler_text ev]
      else ret tt
  | None => ret tt
  end.

Fixpoint deliver (evs : list PageEvent) : M unit :=
  match evs with
  | [] => ret tt
  | ev :: rest => handle ev ;; deliver rest
  end.

(** [await] on a call: the call is made, the page events that fire
    meanwhile reach the listeners, then the call returns or throws. *)
Definition await (op : Op) : M unit :=
  emit (Call op) ;;
  env <- ask ;;
  deliver (page_events env op) ;;
  match fails env op with
  | Some error => throw error
  | None => ret tt
  end.

(** Reading a method off [this.page] when it is [null]. *)
Definition null_page : Thrown :=
  ErrorObj "TypeError" "Cannot read properties of null".

Definition page_op (op : Op) : M Page :=
  this <- get_this ;;
  match page this with
  | None => throw null_page
  | Some _ =>
      await op ;;
      this' <- get_this ;;
      match page this' with
      | None => throw null_page
      | Some p => ret p
      end
  end.

Definition set_page (p : Page) : M unit :=
  this <- get_this ;;
  put_this {| browser := browser this; page := Some p;
              debug := debug this; headless := headless this |}.

Definition set_browser (b : Browser) : M unit :=
  this <- get_this ;;
  put_this {| browser := Some b; page := page this;
              debug := debug this; headless := headless this |}.

(** Synchronous setters on the page: they cannot be pending and do not
    throw. *)
Definition page_sync (op : Op) (update : Page -> Page) : M unit :=
  this <- get_this ;;
  match page this with
  | None => throw null_page
  | Some p => emit (Call op) ;; set_page (update p)
  end.

Definition page_setDefaultTimeout (ms : Z) : M unit :=
  page_sync (SetDefaultTimeout ms)
    (fun p => {| defaultTimeout := ms; listeners := listeners p;
                 fields := fields p; showing := showing p |}).

Definition page_on (event : string) : M unit :=
  page_sync (PageOn event)
    (fun p => {| defaultTimeout := defaultTimeout p;
                 listeners := listeners p ++ [event];
                 fields := fields p; showing := showing p |}).

Definition page_goto (url waitUntil : string) (timeout : Z) : M unit :=
  p <- page_op (Goto url waitUntil timeout) ;;
  set_page {| defaultTimeout := defaultTimeout p; listeners := listeners p;
              fields := []; showing := LoginForm |}.

(** Keystrokes go to the end of what the input already holds. *)
Fixpoint type_into (selector text : string) (fs : list (string * string))
  : list (string * string) :=
  match fs with
  | [] => [(selector, text)]
  | (sel, old) :: rest =>
      if String.eqb sel selector then (sel, old +:+ text) :: rest
      else (sel, old) :: type_into selector text rest
  end.

(** Nothing is typed when the text is [undefined]. *)
Definition typed (selector : string) (text : option string)
  (fs : list (string * string)) : list (string * string) :=
  match text with
  | Some t => type_into selector t fs
  | None => fs
  end.

Definition page_type (selector : string) (text : option string) (delay : Z)
  : M unit :=
  p <- page_op (Type_ selector text delay) ;;
  set_page {| defaultTimeout := defaultTimeout p; listeners := listeners p;
              fields := typed selector text (fields p);
              showing := showing p |}.

Definition page_click (selector : string) : M unit :=
  page_op (Click selector) ;; ret tt.

Definition page_waitForNavigation (waitUntil : string) : M unit :=
  p <- page_op (WaitForNavigation waitUntil) ;;
  env <- ask ;;
  set_page {| defaultTimeout := defaultTimeout p; listeners := listeners p;
              fields := []; showing := after_submit env |}.

(** What a picture of the page shows of its inputs: the text of every input
    that is not rendered as dots. *)
Definition visible (env : Env) (fs : list (string * string))
  : list (string * string) :=
  List.filter (fun f => negb (masked env (fst f))) fs.

Definition page_screenshot (path : string) : M unit :=
  p <- page_op (Screenshot path) ;;
  env <- ask ;;
  emit (Capture path (visible env (fields p))).

Definition puppeteer_launch (options : LaunchOptions) : M Browser :=
  await (Launch options) ;; ret {| running := true |}.

Definition browser_newPage : M Page :=
  await NewPage ;;
  env <- ask ;;
  ret {| defaultTimeout := stock_timeout env; listeners := [];
         fields := []; showing := Blank |}.

Definition browser_close : M unit :=
  await BrowserClose ;;
  set_browser {| running := false |}.

(** [JSON.stringify(launchOptions, null, 2)] *)
Definition nl : string := String "010"%char EmptyString.
Definition dq : string := String "034"%char EmptyString.
Definition quoted (s : string) : string := dq +:+ s +:+ dq.
Definition json_bool (b : bool) : string := if b then "true" else "false".

Definition json_member (indent key value : string) : string :=
  indent +:+ quoted key +:+ ": " +:+ value.

Fixpoint json_lines (lines : list string) : string :=
  match lines with
  | [] => EmptyString
  | [line] => line +:+ nl
  | line :: rest => line +:+ "," +:+ nl +:+ json_lines rest
  end.

Definition json_array (items : list string) : string :=
  match items with
  | [] => "[]"
  | _ => "[" +:+ nl +:+ json_lines (map (fun i => "    " +:+ quoted i) items)
         +:+ "  ]"
  end.

Definition json_viewport (v : option (Z * Z)) : string :=
  match v with
  | None => "null"
  | Some (w, h) =>
      "{" +:+ nl +:+
      json_lines [json_member "    " "width" (pretty w);
                  json_member "    " "height" (pretty h)] +:+ "  }"
  end.

Definition stringify_launch (o : LaunchOptions) : string :=
  "{" +:+ nl +:+
  json_lines
    ([json_member "  " "headless" (json_bool (lo_headless o));
      json_member "  " "defaultViewport" (json_viewport (lo_defaultViewport o));
      json_member "  " "args" (json_array (lo_args o))]
     ++ match lo_devtools o with
        | Some d => [json_member "  " "devtools" (json_bool d)]
        | None => []
        end
     ++ match lo_slowMo o with
        | Some ms => [json_member "  " "slowMo" (pretty ms)]
        | None => []
        end)
  +:+ "}".

(** The object literal of [initialize]: the spread of
    [this.debug && {...}] overrides [headless] and adds two keys. *)
Definition launchOptions (this : Scraper) : LaunchOptions :=
  let base := {| lo_headless := headless this;
                 lo_defaultViewport := None;
                 lo_args := ["--start-maximized"];
                 lo_devtools := None;
                 lo_slowMo := None |} in
  if debug this
  then {| lo_headless := false;
          lo_defaultViewport := lo_defaultViewport base;
          lo_args := lo_args base;
          lo_devtools := Some true;
          lo_slowMo := Some 50 |}
  else base.

(** An object reference is truthy, [null] is not. *)
Definition non_null {A} (o : option A) : bool :=
  match o with
  | Some _ => true
  | None => false
  end.

(** The screenshot both [catch] blocks take:
    [if (this.debug && this.page) { ... }] *)
Definition error_screenshot : M unit :=
  this <- get_this ;;
  if debug this && non_null (page this)
  then page_screenshot "debug-error.png" ;;
       log ["Error screenshot saved as debug-error.png"]
  else ret tt.

(** [async initialize()] *)
Definition initialize : M unit :=
  log ["Initializing browser..."] ;;
  this <- get_this ;;
  let options := launchOptions this in
  log ["Launch options:"; stringify_launch options] ;;
  try_catch
    (b <- puppeteer_launch options ;;
     set_browser b ;;
     log ["Browser launched successfully"] ;;
     p <- browser_newPage ;;
     set_page p ;;
     log ["New page created"] ;;
     page_setDefaultTimeout 30000 ;;
     this <- get_this ;;
     if debug this
     then page_on "console" ;;
          page_on "pageerror" ;;
          page_on "error" ;;
          page_on "request" ;;
          page_on "response"
     else ret tt)
    (fun error =>
       let errorMsg := "Error during initialization: " +:+ error_text error in
       log [errorMsg] ;;
       error_screenshot ;;
       throw error).

(** The module-level [credentials] object. *)
Record Credentials : Type := mkCredentials {
  id : option string;
  password : option string;
  code : option string
}.

Definition login_url : string := "https://start.telebank.co.il/login/?bank=m".

(** The selector of the submit button; it holds two double quotes. *)
Definition submit_selector : string :=
  ".login-form button[type=" +:+ dq +:+ "submit" +:+ dq +:+ "]".

Definition when_debug (body : M unit) : M unit :=
  this <- get_this ;;
  if debug this then body else ret tt.

Definition page_not_initialized : string :=
  "Page not initialized. Call initialize() first.".

(** [async login()] *)
Definition login (credentials : Credentials) : M unit :=
  this <- get_this ;;
  match page this with
  | None =>
      let errorMsg := page_not_initialized in
      log [errorMsg] ;;
      throw (ErrorObj "Error" errorMsg)
  | Some _ =>
      try_catch
        (log ["Navigating to login page..."] ;;
         page_goto login_url "networkidle2" 60000 ;;
         log ["Login page loaded"] ;;
         when_debug
           (page_screenshot "debug-login-page.png" ;;
            log ["Screenshot saved as debug-login-page.png"]) ;;
         log ["Entering credentials..."] ;;
         page_type "input#tzId" (id credentials) 50 ;;
         log ["Entered ID"] ;;
         page_type "input#tzPassword" (password credentials) 50 ;;
         log ["Entered password"] ;;
         page_type "input#aidnum" (code credentials) 50 ;;
         log ["Entered code"] ;;
         log ["Successfully entered all credentials"] ;;
         when_debug
           (page_screenshot "debug-credentials-entered.png" ;;
            log ["Screenshot after entering credentials saved as debug-credentials-entered.png"]) ;;
         log ["Clicking login button..."] ;;
         page_click submit_selector ;;
         log ["Login button clicked"] ;;
         log ["Waiting for navigation..."] ;;
         page_waitForNavigation "networkidle2" ;;
         log ["Navigation complete"] ;;
         when_debug
           (page_screenshot "debug-after-login.png" ;;
            log ["Screenshot after login saved as debug-after-login.png"]))
        (fun error =>
           let errorMsg := "Error during login: " +:+ error_text error in
           log [errorMsg] ;;
           error_screenshot ;;
           throw error)
  end.

(** [async close()] *)
Definition close : M unit :=
  this <- get_this ;;
  match browser this with
  | Some _ => browser_close
  | None => ret tt
  end.

(** [await new Promise(resolve => setTimeout(resolve, ms))] *)
Definition sleep (ms : Z) : M unit :=
  emit (Call (Sleep ms)) ;;
  env <- ask ;;
  deliver (page_events env (Sleep ms)).

(** [async function main()] *)
Definition main (credentials : Credentials) : M unit :=
  constructor {| opt_debug := Some true; opt_headless := Some false |} ;;
  try_finally
    (try_catch
       (initialize ;;
        login credentials ;;
        console_log ["Keeping browser open for 30 seconds..."] ;;
        sleep 30000)
       (fun error =>
          console_error ["An error occurred:"; show_thrown error] ;;
          process_exit 1))
    (console_log ["Closing browser..."] ;;
     close ;;
     console_log ["Browser closed"]).

(** ** The module body *)

(** [process.env]: a variable is a string or is not set. *)
Definition truthy (v : option string) : bool :=
  match v with
  | Some s => negb (String.eqb s EmptyString)
  | None => false
  end.

Definition load_credentials (penv : gmap string string) : Credentials :=
  {| id := penv !! "CREDENTIALS_ID";
     password := penv !! "CREDENTIALS_PASSWORD";
     code := penv !! "CREDENTIALS_CODE" |}.

Definition requiredEnvVars : list string :=
  ["CREDENTIALS_ID"; "CREDENTIALS_PASSWORD"; "CREDENTIALS_CODE"].

Definition missingVars (penv : gmap string string) : list string :=
  List.filter (fun varName => negb (truthy (penv !! varName))) requiredEnvVars.

Fixpoint forEach {A} (xs : list A) (f : A -> M unit) : M unit :=
  match xs with
  | [] => ret tt
  | x :: rest => f x ;; forEach rest f
  end.

(** Running the file: the check of the environment, then [main()]. *)
Definition script (penv : gmap string string) : M unit :=
  let credentials := load_credentials penv in
  let missing := missingVars penv in
  if (0 <? length missing)%nat
  then console_error ["Error: Missing required environment variables:"] ;;
       forEach missing (fun varName => console_error ["- " +:+ varName]) ;;
       console_error [nl +:+ "Please copy .env.example to .env and fill in your credentials"] ;;
       process_exit 1
  else main credentials.

(** No [Scraper] exists before [new Scraper(...)]. *)
Definition no_scraper : Scraper :=
  {| browser := None; page := None; debug := false; headless := false |}.

Definition run {A} (m : M A) (env : Env) (this : Scraper) : Res A := m env this.

(** [close()] called [n] times in a row. *)
Fixpoint close_times (n : nat) : M unit :=
  match n with
  | O => ret tt
  | S k => close ;; close_times k
  end.

(** What [main] does once the scraper is built, up to the end of [login];
    the options are the caller's. *)
Definition session (options : ScraperOptions) (credentials : Credentials)
  : M unit :=
  constructor options ;;
  initialize ;;
  login credentials.

(** The caller's options with the debug flag set to [d]. *)
Definition with_debug (d : bool) (options : ScraperOptions) : ScraperOptions :=
  {| opt_debug := Some d; opt_headless := opt_headless options |}.

(** ** Reading a trace *)

(** The Puppeteer calls, in order. *)
Fixpoint calls (tr : list Event) : list Op :=
  match tr with
  | [] => []
  | Call op :: rest => op :: calls rest
  | _ :: rest => calls rest
  end.

(** What goes to the console: [console.log] and [console.error] lines. *)
Fixpoint console (tr : list Event) : list Event :=
  match tr with
  | [] => []
  | ConsoleLog args :: rest => ConsoleLog args :: console rest
  | ConsoleError args :: rest => ConsoleError args :: console rest
  | _ :: rest => console rest
  end.

(** The screenshots written. *)
Fixpoint captures (tr : list Event) : list Event :=
  match tr with
  | [] => []
  | Capture path shown :: rest => Capture path shown :: captures rest
  | _ :: rest => captures rest
  end.

(** Calls that drive the browser; screenshots, listener registrations, the
    timer and the launch itself are not among them. *)
Definition is_driving (op : Op) : bool :=
  match op with
  | NewPage | SetDefaultTimeout _ | Goto _ _ _ | Type_ _ _ _
  | Click _ | WaitForNavigation _ | BrowserClose => true
  | _ => false
  end.

Definition driving (tr : list Event) : list Op :=
  List.filter is_driving (calls tr).

Definition is_launch (op : Op) : bool :=
  match op with Launch _ => true | _ => false end.

Definition is_goto (op : Op) : bool :=
  match op with Goto _ _ _ => true | _ => false end.

Definition is_click (op : Op) : bool :=
  match op with Click _ => true | _ => false end.

Definition is_screenshot (op : Op) : bool :=
  match op with Screenshot _ => true | _ => false end.

Definition is_close (op : Op) : bool :=
  match op with BrowserClose => true | _ => false end.

Definition is_wait (op : Op) : bool :=
  match op with WaitForNavigation _ => true | _ => false end.

(** How often the browser was launched, and how often the form was
    submitted. *)
Definition launches (tr : list Event) : nat :=
  length (List.filter is_launch (calls tr)).

Definition submissions (tr : list Event) : nat :=
  length (List.filter is_click (calls tr)).

(** The steps of [login], in the order of the source. *)
Definition login_steps (c : Credentials) : list Op :=
  [Goto login_url "networkidle2" 60000;
   Type_ "input#tzId" (id c) 50;
   Type_ "input#tzPassword" (password c) 50;
   Type_ "input#aidnum" (code c) 50;
   Click submit_selector;
   WaitForNavigation "networkidle2"].

(** A screenshot in [tr] shows an input holding exactly [text]. *)
Definition captured (text : string) (tr : list Event) : Prop :=
  exists path shown selector,
    In (Capture path shown) tr /\ In (selector, text) shown.

(** The browser's answers do not depend on the text typed. *)
Definition blind (env : Env) : Prop :=
  forall selector text text' delay,
    fails env (Type_ selector text delay) = fails env (Type_ selector text' delay)
    /\ page_events env (Type_ selector text delay)
       = page_events env (Type_ selector text' delay).

(** The page renders the three inputs of the form as dots. *)
Definition masks_form (env : Env) : Prop :=
  masked env "input#tzId" = true
  /\ masked env "input#tzPassword" = true
  /\ masked env "input#aidnum" = true.

(** The listeners of the page, if there is one. *)
Definition registered (this : Scraper) : list string :=
  match page this with
  | Some p => listeners p
  | None => []
  end.

(** The console lines the listeners [ls] print for the events [evs]. *)
Definition heard (dbg : bool) (ls : list string) (ev : PageEvent)
  : list Event :=
  if existsb (String.eqb (event_name ev)) ls && dbg
  then [ConsoleLog ["[DEBUG]"; handler_text ev]]
  else [].

Definition delivered (dbg : bool) (ls : list string) (evs : list PageEvent)
  : list Event :=
  flat_map (heard dbg ls) evs.

(** ** Sample worlds *)

Definition sample_credentials : Credentials :=
  {| id := Some "123456789"; password := Some "hunter2"; code := Some "4321" |}.

Definition sample_penv : gmap string string :=
  <["CREDENTIALS_ID" := "123456789"]>
    (<["CREDENTIALS_PASSWORD" := "hunter2"]>
       (<["CREDENTIALS_CODE" := "4321"]> ∅)).

(** Every call succeeds; the site accepts the login and masks the password
    input only. *)
Definition env_ok : Env :=
  {| fails := fun _ => None;
     page_events := fun op =>
       match op with
       | Click _ => [EvRequest "POST" "https://start.telebank.co.il/login";
                     EvResponse 302 "https://start.telebank.co.il/login"]
       | _ => []
       end;
     masked := String.eqb "input#tzPassword";
     stock_timeout := 30000;
     after_submit := Dashboard |}.

(** As [env_ok], but the calls picked by [bad] throw [error]. *)
Definition env_failing (bad : Op -> bool) (error : Thrown) : Env :=
  {| fails := fun op => if bad op then Some error else None;
     page_events := page_events env_ok;
     masked := masked env_ok;
     stock_timeout := stock_timeout env_ok;
     after_submit := after_submit env_ok |}.

Definition navigation_timeout : Thrown :=
  ErrorObj "TimeoutError" "Navigation timeout of 60000 ms exceeded".

(** The login page does not load in time. *)
Definition env_goto_timeout : Env := env_failing is_goto navigation_timeout.

(** The submitted form does not settle in time. *)
Definition env_settle_timeout : Env :=
  env_failing is_wait
    (ErrorObj "TimeoutError" "Navigation timeout of 30000 ms exceeded").

(** Screenshots cannot be written. *)
Definition env_no_screenshot : Env :=
  env_failing is_screenshot (ErrorObj "Error" "EACCES: permission denied").

(** No display: a browser with a window does not start. *)
Definition env_no_display : Env :=
  env_failing
    (fun op => match op with
               | Launch o => negb (lo_headless o)
               | _ => false
               end)
    (ErrorObj "Error" "Failed to launch the browser process").

(** [browser.close()] rejects. *)
Definition env_close_rejects : Env :=
  env_failing is_close (ErrorObj "Error" "Protocol error: Connection closed").

(** The site turns the credentials down and renders the form again. *)
Definition env_rejected : Env :=
  {| fails := fails env_ok;
     page_events := page_events env_ok;
     masked := masked env_ok;
     stock_timeout := stock_timeout env_ok;
     after_submit := LoginRejected |}.

(** A scraper after a successful [initialize], debug off. *)
Definition launched : Scraper :=
  {| browser := Some {| running := true |};
     page := Some {| defaultTimeout := 30000; listeners := [];
                     fields := []; showing := Blank |};
     debug := false;
     headless := true |}.

(** ** The extraction pipeline *)

Module Pipeline.

(** The per-step error taxonomy. *)
Inductive ExtractionError : Type :=
  | ElementNotFound
  | ExtractionTimeout
  | ParseError.

(** A view's entry in the result: the value, or the error marker. *)
Inductive Result (V : Type) : Type :=
  | Extracted (value : V)
  | Failed (error : ExtractionError).
Arguments Extracted {V} value.
Arguments Failed {V} error.

Section Steps.
Context {Session Raw Value : Type}.

(** Modelled from the spec: an Extraction Step, a named unit
    [{name, locate, parse}]; the file that defines the steps is not among
    the sources.  [locate] reads the authenticated session and gives the
    raw content or fails ([ElementNotFound], [ExtractionTimeout]); [parse]
    gives the structured value, or nothing when the content has not the
    expected shape. *)
Record Step : Type := mkStep {
  name : string;
  locate : Session -> Result Raw;
  parse : Raw -> option Value
}.

(** Modelled from the spec: one step run against the session; the
    pipeline's code is not among the sources.  A failure is captured as the
    step's result, it is not thrown. *)
Definition run_step (session : Session) (st : Step) : Result Value :=
  match locate st session with
  | Failed error => Failed error
  | Extracted raw =>
      match parse st raw with
      | Some value => Extracted value
      | None => Failed ParseError
      end
  end.

(** Modelled from the spec: [runAll(session)], missing from the sources.
    The steps run in their declared order, each against the one session,
    and the result maps every view name to its step's value or error
    marker; it is built up as each step completes. *)
Definition runAll (session : Session) (steps : list Step)
  : gmap string (Result Value) :=
  foldl (fun result st => <[name st := run_step session st]> result)
        ∅ steps.

End Steps.

Arguments Step : clear implicits.

(** Modelled from the spec: the five data views, over a session that is
    the list of the views the account has; a view that is absent is not
    found. *)
Definition view (v : string) : Step (list string) string string :=
  {| name := v;
     locate := fun session =>
       if existsb (String.eqb v) session then Extracted v
       else Failed ElementNotFound;
     parse := Some |}.

Definition sample_steps : list (Step (list string) string string) :=
  map view ["userAccounts"; "accountDetails"; "debitAuthorizations";
            "dashboardBalances"; "loansData"].

(** An account holder without loans. *)
Definition sample_session : list string :=
  ["userAccounts"; "accountDetails"; "debitAuthorizations";
   "dashboardBalances"].

End Pipeline.


(** ** More readings of a trace *)

Definition is_page_on (op : Op) : bool :=
  match op with PageOn _ => true | _ => false end.

(** The files of the screenshots asked for, in order. *)
Fixpoint shot_paths (ops : list Op) : list string :=
  match ops with
  | [] => []
  | Screenshot path :: rest => path :: shot_paths rest
  | _ :: rest => shot_paths rest
  end.

(** The three screenshots of a debug [login] that succeeds. *)
Definition debug_shots : list string :=
  ["debug-login-page.png"; "debug-credentials-entered.png";
   "debug-after-login.png"].

(** The events [initialize] subscribes to when debug is on. *)
Definition debug_listeners : list string :=
  ["console"; "pageerror"; "error"; "request"; "response"].

(** The calls of an [initialize] that succeeds. *)
Definition initialize_calls (this : Scraper) : list Op :=
  [Launch (launchOptions this); NewPage; SetDefaultTimeout 30000]
  ++ (if debug this then map PageOn debug_listeners else []).



(** The awaited calls in the try block of a debug [login], in the order of
    the source. *)
Definition login_debug_calls (c : Credentials) : list Op :=
  [Goto login_url "networkidle2" 60000;
   Screenshot "debug-login-page.png";
   Type_ "input#tzId" (id c) 50;
   Type_ "input#tzPassword" (password c) 50;
   Type_ "input#aidnum" (code c) 50;
   Screenshot "debug-credentials-entered.png";
   Click submit_selector;
   WaitForNavigation "networkidle2";
   Screenshot "debug-after-login.png"].

(** The login page does not load in time, and screenshots cannot be
    written. *)
Definition env_goto_timeout_no_screenshot : Env :=
  {| fails := fun op =>
       if is_goto op then Some navigation_timeout
       else if is_screenshot op
            then Some (ErrorObj "Error" "EACCES: permission denied")
            else None;
     page_events := page_events env_ok;
     masked := masked env_ok;
     stock_timeout := stock_timeout env_ok;
     after_submit := after_submit env_ok |}.

(** * Executing the model *)

Section Execution.
Context (env : Env).

(** A page event reaches its listener, which prints it when debug is on. *)
Lemma handle_eq this ev :
  handle ev env this
  = mkRes (Ok tt) this (heard (debug this) (registered this) ev).
Proof.
  unfold handle, heard, registered, log, console_log, emit, bind, get_this,
    ret, after.
  destruct (page this) as [p|]; [|reflexivity].
  destruct (existsb _ _); [|reflexivity].
  destruct (debug this); reflexivity.
Qed.

(** Delivering page events never fails and never changes the scraper. *)
Lemma deliver_eq this evs :
  deliver evs env this
  = mkRes (Ok tt) this (delivered (debug this) (registered this) evs).
Proof.
  induction evs as [|ev rest IH]; [reflexivity|].
  cbn [deliver]. unfold bind. rewrite handle_eq, IH. reflexivity.
Qed.

(** A loop whose body only emits one event per element. *)
Lemma forEach_emits this {A} (xs : list A) (f : A -> M unit) (g : A -> Event) :
  (forall x this', f x env this' = mkRes (Ok tt) this' [g x]) ->
  forEach xs f env this = mkRes (Ok tt) this (map g xs).
Proof.
  intros Hf. induction xs as [|x rest IH]; [reflexivity|].
  cbn [forEach map]. unfold bind. rewrite Hf. cbv beta iota.
  rewrite IH. reflexivity.
Qed.

End Execution.

Lemma calls_app tr tr' : calls (tr ++ tr') = calls tr ++ calls tr'.
Proof.
  induction tr as [|[] tr IH]; cbn [calls app]; rewrite ?IH; reflexivity.
Qed.

Lemma console_app tr tr' : console (tr ++ tr') = console tr ++ console tr'.
Proof.
  induction tr as [|[] tr IH]; cbn [console app]; rewrite ?IH; reflexivity.
Qed.

Lemma captures_app tr tr' : captures (tr ++ tr') = captures tr ++ captures tr'.
Proof.
  induction tr as [|[] tr IH]; cbn [captures app]; rewrite ?IH; reflexivity.
Qed.

(** What the listeners print is console output only. *)
Lemma calls_delivered dbg ls evs : calls (delivered dbg ls evs) = [].
Proof.
  unfold delivered. induction evs as [|ev rest IH]; [reflexivity|].
  cbn [flat_map]. rewrite calls_app, IH. unfold heard.
  destruct (_ && _); reflexivity.
Qed.

Lemma captures_delivered dbg ls evs : captures (delivered dbg ls evs) = [].
Proof.
  unfold delivered. induction evs as [|ev rest IH]; [reflexivity|].
  cbn [flat_map]. rewrite captures_app, IH. unfold heard.
  destruct (_ && _); reflexivity.
Qed.

Lemma console_delivered dbg ls evs :
  console (delivered dbg ls evs) = delivered dbg ls evs.
Proof.
  unfold delivered. induction evs as [|ev rest IH]; [reflexivity|].
  cbn [flat_map]. rewrite console_app, IH. unfold heard.
  destruct (_ && _); reflexivity.
Qed.

Lemma delivered_quiet ls evs : delivered false ls evs = [].
Proof.
  unfold delivered. induction evs as [|ev rest IH]; [reflexivity|].
  cbn [flat_map]. rewrite IH. unfold heard. rewrite andb_false_r. reflexivity.
Qed.

Lemma calls_console_errors (xs : list string) (f : string -> string) :
  calls (map (fun x => ConsoleError [f x]) xs) = [].
Proof. induction xs as [|x rest IH]; [reflexivity|exact IH]. Qed.

(** A masked input adds nothing to what a screenshot shows. *)
Lemma visible_type_into env selector text fs :
  masked env selector = true ->
  visible env (type_into selector text fs) = visible env fs.
Proof.
  intros Hm. induction fs as [|[sel old] rest IH].
  - cbn. rewrite Hm. reflexivity.
  - cbn [type_into]. destruct (String.eqb sel selector) eqn:Heq.
    + apply String.eqb_eq in Heq. subst sel. cbn. rewrite Hm. reflexivity.
    + unfold visible in *. cbn [List.filter]. rewrite IH. reflexivity.
Qed.

Lemma visible_typed env selector text fs :
  masked env selector = true ->
  visible env (typed selector text fs) = visible env fs.
Proof.
  intros Hm. destruct text as [t|]; [|reflexivity].
  apply visible_type_into. exact Hm.
Qed.

Create Rewrite HintDb trace.
#[local] Hint Rewrite calls_app console_app captures_app calls_delivered
  captures_delivered console_delivered delivered_quiet app_nil_r : trace.

(** One pass of symbolic execution: the monad and the methods are unfolded,
    and the run stops at the next answer of the environment. *)
Ltac unroll :=
  cbv beta iota zeta delta
    [run session login initialize close main constructor try_catch try_finally
     bind after ret throw emit get_this put_this ask process_exit
     console_log console_error log when_debug page_op await page_sync
     set_page set_browser page_setDefaultTimeout page_on page_goto page_type
     page_click page_waitForNavigation page_screenshot error_screenshot
     puppeteer_launch browser_newPage browser_close sleep launchOptions
     registered non_null
     browser page debug headless outcome final trace andb negb
     defaultTimeout listeners fields showing opt_debug opt_headless
     lo_headless lo_defaultViewport lo_args lo_devtools lo_slowMo
     id password code];
  cbn [app].

(** The environment answers: the listeners' output is spelled out, and a
    call either throws or returns. *)
Ltac answer :=
  first
    [ rewrite deliver_eq
    | match goal with
      | |- context [fails ?env ?op] => destruct (fails env op) eqn:?
      end ].

Ltac exec_with tac := repeat (unroll; tac; try answer).

Ltac exec := exec_with idtac.

(** String literals are put out of sight before a run is executed: the
    terms stay small. *)
Ltac hide_strings :=
  repeat match goal with
         | |- context [String ?a ?s] =>
             let x := fresh "text" in
             set (x := String a s) in *; clearbody x
         end.

Ltac execute := unroll; hide_strings; exec.

(** Reading the trace of a finished run. *)
Ltac observe :=
  repeat progress
    (cbn [calls console captures driving launches submissions length
          List.filter is_driving is_launch is_click is_goto is_close app];
     autorewrite with trace).

(** A call that threw cannot have happened where no call throws. *)
Ltac contradict_failure Hok :=
  repeat match goal with
         | H : fails _ _ = Some _ |- _ => rewrite Hok in H; discriminate H
         end.

(** The call whose failure is the error of the run. *)
Ltac blame :=
  match goal with
  | H : fails _ ?op = Some ?e |- exists _, _ /\ fails _ _ = Some ?e =>
      exists op; split; [observe; cbn [In]; tauto | exact H]
  end.

(** * The session is closed on every exit path *)

(** Whenever [main] ends by [process.exit(1)], that is whenever [initialize]
    or [login] threw, [browser.close()] was never called: the [finally]
    block did not run. *)
Lemma main_exit_skips_close env c this :
  let r := run (main c) env this in
  outcome r = Exit 1 ->
  List.filter is_close (calls (trace r)) = [].
Proof.
  cbn zeta. execute.
  all: try (intros; discriminate).
  all: intros _; observe; reflexivity.
Qed.

(** C1, at the input where the claim fails.  The credentials are set and
    the login page does not load within its time limit: the browser was
    launched, [main]'s catch block prints the error and calls
    [process.exit(1)], and the run ends there.  [browser.close()] is never
    called and the browser is left running, where the claim has [close()]
    invoked on every exit path. *)
Theorem main_failure_exits_before_close :
  let r := run (script sample_penv) env_goto_timeout no_scraper in
  outcome r = Exit 1
  /\ browser (final r) = Some {| running := true |}
  /\ List.filter is_close (calls (trace r)) = []
  /\ List.filter (fun op => is_launch op || is_goto op) (calls (trace r))
     = [Launch {| lo_headless := false; lo_defaultViewport := None;
                  lo_args := ["--start-maximized"]; lo_devtools := Some true;
                  lo_slowMo := Some 50 |};
        Goto login_url "networkidle2" 60000]
  /\ List.filter (fun ev => match ev with
                            | ConsoleLog [_] | ConsoleError _ => true
                            | _ => false
                            end)
       (trace r)
     = [ConsoleError ["An error occurred:";
                      "TimeoutError: Navigation timeout of 60000 ms exceeded"]].
Proof. vm_compute. repeat split. Qed.

(** * [close()] *)

(** C2, counterexample.  On a launched scraper a second [close()] calls
    [browser.close()] a second time, so it is not without effect; and a
    [close()] whose [browser.close()] rejects does not complete without
    error. *)
Lemma close_twice_is_not_once :
  calls (trace (run (close_times 2) env_ok launched)) = [BrowserClose; BrowserClose]
  /\ calls (trace (run (close_times 1) env_ok launched)) = [BrowserClose]
  /\ outcome (run close env_close_rejects launched)
     = Throw (ErrorObj "Error" "Protocol error: Connection closed").
Proof. repeat split. Qed.

(** C2, amended.  [close()] called [n] times in a row: with no browser
    stored (never initialised, or the launch itself failed) nothing happens
    and nothing fails; with a browser stored, every call, the first as any
    later one, calls [browser.close()] once and fails exactly when that call
    does, in which case the calls after it are not reached.  The page and
    the flags of the scraper are never touched. *)
Theorem close_delegates_every_call env this n :
  let r := run (close_times n) env this in
  match browser this with
  | None => r = mkRes (Ok tt) this []
  | Some _ =>
      page (final r) = page this
      /\ debug (final r) = debug this
      /\ headless (final r) = headless this
      /\ match fails env BrowserClose with
         | None =>
             outcome r = Ok tt
             /\ calls (trace r) = replicate n BrowserClose
         | Some error =>
             match n with
             | O => outcome r = Ok tt /\ calls (trace r) = []
             | S _ => outcome r = Throw error /\ calls (trace r) = [BrowserClose]
             end
         end
  end.
Proof.
  revert this. induction n as [|n IH]; intros [b pg d h]; cbn zeta.
  - destruct b; cbn; [|reflexivity]. destruct (fails env BrowserClose); auto.
  - destruct b as [b|].
    + specialize (IH {| browser := Some {| running := false |}; page := pg;
                        debug := d; headless := h |}).
      cbn zeta in IH. cbn [browser page debug headless] in IH |- *.
      cbn [close_times]. unroll. rewrite deliver_eq. unroll.
      destruct (fails env BrowserClose) as [error|] eqn:Hclose.
      * unroll. observe. auto.
      * unroll. unfold run in IH.
        destruct (close_times n env _) as [o f tr].
        cbn [outcome final trace] in IH |- *.
        destruct IH as (Hpg & Hd & Hh & Ho & Hcalls).
        observe. rewrite Hcalls. auto.
    + specialize (IH {| browser := None; page := pg; debug := d; headless := h |}).
      cbn zeta in IH. cbn [browser] in IH |- *.
      cbn [close_times]. unroll. unfold run in IH. rewrite IH. reflexivity.
Qed.

(** * The check of the credentials *)

(** C3.  When any of the three required variables is not set, or is empty,
    the script prints the validation error, naming the variable, and exits
    with status 1; no Puppeteer call is made, so no browser is launched. *)
Theorem missing_credential_stops_before_launch penv env varName :
  In varName requiredEnvVars ->
  truthy (penv !! varName) = false ->
  let r := run (script penv) env no_scraper in
  outcome r = Exit 1
  /\ calls (trace r) = []
  /\ In (ConsoleError ["Error: Missing required environment variables:"]) (trace r)
  /\ In (ConsoleError ["- " +:+ varName]) (trace r).
Proof.
  intros Hreq Hmiss r.
  assert (Hin : In varName (missingVars penv)).
  { unfold missingVars. apply filter_In. split; [exact Hreq|].
    rewrite Hmiss. reflexivity. }
  subst r. unfold run, script.
  destruct (missingVars penv) as [|m ms] eqn:Hms; [destruct Hin|].
  cbn [length Nat.ltb Nat.leb].
  cbv beta iota delta [bind console_error emit].
  rewrite (forEach_emits env no_scraper (m :: ms) _
             (fun x => ConsoleError ["- " +:+ x])) by reflexivity.
  cbn [after process_exit outcome trace app].
  repeat split.
  - cbn [calls]. rewrite calls_app, calls_console_errors. reflexivity.
  - left. reflexivity.
  - right. apply in_or_app. left.
    apply (in_map (fun x => ConsoleError ["- " +:+ x])) in Hin. exact Hin.
Qed.

Lemma missing_credential_stops_before_launch_witness :
  let r := run (script (delete "CREDENTIALS_CODE" sample_penv)) env_ok no_scraper in
  outcome r = Exit 1
  /\ calls (trace r) = []
  /\ In (ConsoleError ["Error: Missing required environment variables:"]) (trace r)
  /\ In (ConsoleError ["- " +:+ "CREDENTIALS_CODE"]) (trace r).
Proof.
  apply (missing_credential_stops_before_launch
           (delete "CREDENTIALS_CODE" sample_penv) env_ok "CREDENTIALS_CODE").
  - cbn. right. right. left. reflexivity.
  - vm_compute. reflexivity.
Defined.

(** * [login()] *)

(** C4.  On an initialised page, the browser-driving calls of [login] are
    always a prefix of the fixed sequence: goto the login URL, type the
    identifier, the password and the security code, each with a delay of
    50 ms per keystroke, click submit, wait for the navigation.  When
    [login] returns, the calls are the whole sequence; and it does return
    when no call throws. *)
Theorem login_runs_its_steps_in_order env this c :
  page this <> None ->
  let r := run (login c) env this in
  driving (trace r) `prefix_of` login_steps c
  /\ (outcome r = Ok tt -> driving (trace r) = login_steps c)
  /\ ((forall op, fails env op = None) -> outcome r = Ok tt).
Proof.
  intros Hpage. destruct this as [b [p|] d h]; [clear Hpage|by destruct Hpage].
  destruct p as [timeout ls fs sh].
  cbn zeta. unfold login_steps. destruct d.
  all: execute; observe.
  all: (split; [eexists; reflexivity|]).
  all: (split; [first [reflexivity | intros; discriminate]|]).
  all: try reflexivity.
  all: intros Hok; contradict_failure Hok.
Qed.

Lemma login_runs_its_steps_in_order_witness :
  let r := run (login sample_credentials) env_ok launched in
  driving (trace r) `prefix_of` login_steps sample_credentials
  /\ (outcome r = Ok tt -> driving (trace r) = login_steps sample_credentials)
  /\ ((forall op, fails env_ok op = None) -> outcome r = Ok tt).
Proof.
  apply (login_runs_its_steps_in_order env_ok launched sample_credentials).
  discriminate.
Defined.

(** * Time limits *)





(** * Failures of [login] *)

(** C6, counterexample.  The site turns the credentials down and renders
    the form again: [login] returns without error although the page shows
    the rejection, so no AuthenticationFailed outcome exists.  The
    submitted form does not settle in time: [login] throws Puppeteer's own
    TimeoutError, unchanged, not an AuthenticationTimeout. *)
Lemma login_reports_no_rejection :
  let r := run (login sample_credentials) env_rejected launched in
  outcome r = Ok tt
  /\ option_map showing (page (final r)) = Some LoginRejected
  /\ outcome (run (login sample_credentials) env_settle_timeout launched)
     = Throw (ErrorObj "TimeoutError" "Navigation timeout of 30000 ms exceeded").
Proof. vm_compute. repeat split. Qed.

(** What [login] throws is its own page-not-initialised error or, unchanged,
    what one of the calls it made threw. *)
Lemma login_rethrows env this c e :
  outcome (run (login c) env this) = Throw e ->
  e = ErrorObj "Error" page_not_initialized
  \/ exists op, In op (calls (trace (run (login c) env this)))
                /\ fails env op = Some e.
Proof.
  destruct this as [b [p|] d h].
  - destruct p as [timeout ls fs sh]. destruct d.
    all: execute.
    all: try (intros; discriminate).
    all: intros [= <-]; right; blame.
  - destruct d; intros [= <-]; left; reflexivity.
Qed.

Lemma login_submits_once env this c :
  (submissions (trace (run (login c) env this)) <= 1)%nat.
Proof.
  destruct this as [b [p|] d h].
  - destruct p as [timeout ls fs sh]. destruct d.
    all: execute; observe; cbn; lia.
  - destruct d; cbn; lia.
Qed.

Lemma main_launches_and_submits_once env this c :
  (launches (trace (run (main c) env this)) <= 1)%nat
  /\ (submissions (trace (run (main c) env this)) <= 1)%nat.
Proof.
  execute; observe; cbn; lia.
Qed.

(** C6, amended.  [login] does not sort its failures into kinds: what it
    throws is the error of the call that failed, as that call threw it (or
    its own page-not-initialised error).  Nothing is retried: one [login]
    submits the form at most once, and one run of [main] launches at most
    one browser and submits at most once. *)
Theorem login_rethrows_and_never_retries env this c :
  let r := run (login c) env this in
  let m := run (main c) env this in
  (forall e, outcome r = Throw e ->
             e = ErrorObj "Error" page_not_initialized
             \/ exists op, In op (calls (trace r)) /\ fails env op = Some e)
  /\ (submissions (trace r) <= 1)%nat
  /\ (launches (trace m) <= 1)%nat
  /\ (submissions (trace m) <= 1)%nat.
Proof.
  intros r m. split; [intros e; apply login_rethrows|].
  split; [apply login_submits_once|].
  apply main_launches_and_submits_once.
Qed.

(** * The extraction pipeline *)

Section PipelineFacts.
Import Pipeline.
Context {Session Raw Value : Type}.
Implicit Types (session : Session) (st : Step Session Raw Value)
  (steps : list (Step Session Raw Value)).

(** The result is built one step at a time. *)
Lemma runAll_snoc session steps st :
  runAll session (steps ++ [st])
  = <[name st := run_step session st]> (runAll session steps).
Proof. unfold runAll. rewrite foldl_app. reflexivity. Qed.

(** Every step's own result is what its view maps to. *)
Lemma runAll_lookup session steps st :
  NoDup (map name steps) ->
  st ∈ steps ->
  runAll session steps !! name st = Some (run_step session st).
Proof.
  induction steps as [|x l IH] using rev_ind; intros Hnd Hin.
  - inversion Hin.
  - rewrite runAll_snoc. rewrite map_app in Hnd. cbn [map] in Hnd.
    apply NoDup_app in Hnd as (Hl & Hfresh & _).
    apply elem_of_app in Hin as [Hin|Hin].
    + assert (name st <> name x) as Hne.
      { intros Heq. apply (Hfresh (name st)).
        - apply list_elem_of_fmap. exists st. split; [reflexivity|exact Hin].
        - rewrite Heq. constructor. }
      rewrite lookup_insert_ne by congruence. apply IH; assumption.
    + apply list_elem_of_singleton in Hin. subst st.
      apply lookup_insert_eq.
Qed.

(** Every entry of the result is the result of a step of that name. *)
Lemma runAll_lookup_inv session steps v r :
  runAll session steps !! v = Some r ->
  exists st, st ∈ steps /\ name st = v /\ r = run_step session st.
Proof.
  induction steps as [|x l IH] using rev_ind; intros Hlook.
  - unfold runAll in Hlook. cbn in Hlook. rewrite lookup_empty in Hlook.
    discriminate.
  - rewrite runAll_snoc in Hlook.
    destruct (decide (name x = v)) as [Heq|Hne].
    + rewrite Heq, lookup_insert_eq in Hlook. injection Hlook as <-.
      exists x. split; [apply elem_of_app; right; constructor|]. auto.
    + rewrite lookup_insert_ne in Hlook by exact Hne.
      destruct (IH Hlook) as (st & Hin & Hname & Hr).
      exists st. split; [apply elem_of_app; left; exact Hin|]. auto.
Qed.

(** C7.  In a pipeline whose steps have distinct names, a step that fails
    is recorded as the error marker of its own view; every step, before or
    after it, still runs and its view maps to its own result, so the
    values the other steps extracted are all in the result; and a view
    carries an error marker only if its own step failed. *)
Theorem step_failure_is_isolated session steps failing error :
  NoDup (map name steps) ->
  failing ∈ steps ->
  run_step session failing = Failed error ->
  let result := runAll session steps in
  result !! name failing = Some (Failed error)
  /\ (forall st, st ∈ steps -> result !! name st = Some (run_step session st))
  /\ (forall v error', result !! v = Some (Failed error') ->
        exists st, st ∈ steps /\ name st = v
                   /\ run_step session st = Failed error').
Proof.
  intros Hnd Hin Hfail result. subst result. repeat split.
  - rewrite <- Hfail. apply runAll_lookup; assumption.
  - intros st Hst. apply runAll_lookup; assumption.
  - intros v error' Hlook.
    destruct (runAll_lookup_inv _ _ _ _ Hlook) as (st & Hst & Hname & Hr).
    exists st. auto.
Qed.

End PipelineFacts.

Lemma step_failure_is_isolated_witness :
  let result := Pipeline.runAll Pipeline.sample_session Pipeline.sample_steps in
  result !! Pipeline.name (Pipeline.view "loansData")
  = Some (Pipeline.Failed Pipeline.ElementNotFound)
  /\ (forall st, st ∈ Pipeline.sample_steps ->
        result !! Pipeline.name st
        = Some (Pipeline.run_step Pipeline.sample_session st))
  /\ (forall v error', result !! v = Some (Pipeline.Failed error') ->
        exists st, st ∈ Pipeline.sample_steps /\ Pipeline.name st = v
                   /\ Pipeline.run_step Pipeline.sample_session st
                      = Pipeline.Failed error').
Proof.
  apply (step_failure_is_isolated Pipeline.sample_session Pipeline.sample_steps
           (Pipeline.view "loansData") Pipeline.ElementNotFound).
  - apply (bool_decide_unpack _). vm_compute. exact I.
  - unfold Pipeline.sample_steps. cbn [map]. repeat constructor.
  - reflexivity.
Defined.

(** The account without loans: the loans view carries the marker, the
    accounts view its value. *)
Example loans_absent_others_present :
  Pipeline.runAll Pipeline.sample_session Pipeline.sample_steps !! "loansData"
  = Some (Pipeline.Failed Pipeline.ElementNotFound)
  /\ Pipeline.runAll Pipeline.sample_session Pipeline.sample_steps !! "userAccounts"
     = Some (Pipeline.Extracted "userAccounts").
Proof. vm_compute. split; reflexivity. Qed.

(** * Credentials in the diagnostics *)

(** C8, counterexample.  [main] runs with debug on; after the credentials
    are typed it takes the screenshot debug-credentials-entered.png, and on
    a page that masks the password input only, that picture shows the
    identifier as it was typed. *)
Lemma debug_screenshot_shows_identifier :
  captured "123456789" (trace (run (script sample_penv) env_ok no_scraper)).
Proof.
  exists "debug-credentials-entered.png",
         [("input#tzId", "123456789"); ("input#aidnum", "4321")],
         "input#tzId".
  split; [vm_compute; tauto | left; reflexivity].
Qed.

(** C8, amended.  Against a browser whose answers do not depend on the text
    typed, the result of [main] and every line it writes to the console,
    error messages included, are the same whatever the credentials are: the
    program writes no credential to its log or into an error.  The
    screenshots are the same too when the page masks the three inputs;
    otherwise they show what was typed. *)
Theorem console_and_errors_hide_credentials env this c c' :
  blind env ->
  let r := run (main c) env this in
  let r' := run (main c') env this in
  outcome r = outcome r'
  /\ console (trace r) = console (trace r')
  /\ (masks_form env -> captures (trace r) = captures (trace r')).
Proof.
  intros Hblind.
  assert (Hf : forall sel t d,
             fails env (Type_ sel t d) = fails env (Type_ sel None d))
    by (intros; apply Hblind).
  assert (He : forall sel t d,
             page_events env (Type_ sel t d) = page_events env (Type_ sel None d))
    by (intros; apply Hblind).
  clear Hblind. destruct c as [i p k], c' as [i' p' k']. cbn zeta.
  unfold masks_form. unroll. hide_strings.
  exec_with
    ltac:(rewrite ?(Hf _ i), ?(Hf _ p), ?(Hf _ k),
            ?(Hf _ i'), ?(Hf _ p'), ?(Hf _ k'),
            ?(He _ i), ?(He _ p), ?(He _ k),
            ?(He _ i'), ?(He _ p'), ?(He _ k')).
  all: observe.
  all: split; [reflexivity|].
  all: split; [reflexivity|].
  all: intros (Hid & Hpw & Hcode).
  all: rewrite ?visible_typed by assumption.
  all: reflexivity.
Qed.

Lemma console_and_errors_hide_credentials_witness :
  let r := run (main sample_credentials) env_ok no_scraper in
  let r' := run (main (mkCredentials (Some "987654321") (Some "swordfish")
                         (Some "0000"))) env_ok no_scraper in
  outcome r = outcome r'
  /\ console (trace r) = console (trace r')
  /\ (masks_form env_ok -> captures (trace r) = captures (trace r')).
Proof.
  apply (console_and_errors_hide_credentials env_ok no_scraper
           sample_credentials
           (mkCredentials (Some "987654321") (Some "swordfish") (Some "0000"))).
  intros selector text text' delay. split; reflexivity.
Defined.

(** * The debug flag *)

(** C9, counterexample.  Where no display is available, the run with debug
    on fails at the launch, because debug forces a browser with a window,
    and the run with debug off succeeds.  Where screenshots cannot be
    written, the run with debug on stops after the navigation with the
    screenshot's error, and the run with debug off goes through all the
    steps and succeeds. *)
Lemma debug_changes_the_run :
  outcome (run (session (mkOptions (Some true) None) sample_credentials)
               env_no_display no_scraper)
  = Throw (ErrorObj "Error" "Failed to launch the browser process")
  /\ outcome (run (session (mkOptions (Some false) None) sample_credentials)
                  env_no_display no_scraper)
     = Ok tt
  /\ outcome (run (session (mkOptions (Some true) None) sample_credentials)
                  env_no_screenshot no_scraper)
     = Throw (ErrorObj "Error" "EACCES: permission denied")
  /\ driving (trace (run (session (mkOptions (Some true) None) sample_credentials)
                         env_no_screenshot no_scraper))
     = [NewPage; SetDefaultTimeout 30000; Goto login_url "networkidle2" 60000]
  /\ outcome (run (session (mkOptions (Some false) None) sample_credentials)
                  env_no_screenshot no_scraper)
     = Ok tt
  /\ driving (trace (run (session (mkOptions (Some false) None) sample_credentials)
                         env_no_screenshot no_scraper))
     = [NewPage; SetDefaultTimeout 30000] ++ login_steps sample_credentials.
Proof. vm_compute. repeat split. Qed.

(** C9, amended.  The run with debug on, against a browser [env], and the
    run with debug off, against a browser [env'], of the constructor,
    [initialize] and [login]: when no screenshot fails, the launch with the
    debug options fares in [env] as the launch with the plain options does
    in [env'], and every other call is answered alike by the two, then the
    two runs end with the same outcome, make the same browser-driving
    calls in the same order, and launch as often.  (The launch options
    themselves differ: debug turns headless off, devtools on and slows
    every action down by 50 ms.) *)
Theorem debug_only_adds_diagnostics env env' options c :
  (forall path, fails env (Screenshot path) = None) ->
  fails env (Launch (launchOptions
                       (final (run (constructor (with_debug true options))
                                   env no_scraper))))
  = fails env' (Launch (launchOptions
                          (final (run (constructor (with_debug false options))
                                      env' no_scraper)))) ->
  (forall op, is_launch op = false -> is_screenshot op = false ->
              fails env op = fails env' op) ->
  let r := run (session (with_debug true options) c) env no_scraper in
  let r' := run (session (with_debug false options) c) env' no_scraper in
  outcome r = outcome r'
  /\ driving (trace r) = driving (trace r')
  /\ launches (trace r) = launches (trace r').
Proof.
  intros Hshot Hlaunch Hsame.
  assert (Hnew : fails env NewPage = fails env' NewPage)
    by (apply Hsame; reflexivity).
  assert (Hgoto : forall u w t, fails env (Goto u w t) = fails env' (Goto u w t))
    by (intros; apply Hsame; reflexivity).
  assert (Htype : forall s t d, fails env (Type_ s t d) = fails env' (Type_ s t d))
    by (intros; apply Hsame; reflexivity).
  assert (Hclick : forall s, fails env (Click s) = fails env' (Click s))
    by (intros; apply Hsame; reflexivity).
  assert (Hwait : forall w, fails env (WaitForNavigation w)
                            = fails env' (WaitForNavigation w))
    by (intros; apply Hsame; reflexivity).
  clear Hsame. revert Hlaunch. destruct options as [dbg h]. cbn zeta.
  unfold with_debug. unroll. hide_strings. intros Hlaunch.
  exec_with
    ltac:(rewrite ?Hshot, ?Hlaunch, ?Hnew, ?Hgoto, ?Htype, ?Hclick, ?Hwait).
  all: observe.
  all: repeat split.
Qed.

Lemma debug_only_adds_diagnostics_witness :
  let r := run (session (with_debug true (mkOptions None None))
                  sample_credentials) env_ok no_scraper in
  let r' := run (session (with_debug false (mkOptions None None))
                   sample_credentials) env_rejected no_scraper in
  outcome r = outcome r'
  /\ driving (trace r) = driving (trace r')
  /\ launches (trace r) = launches (trace r').
Proof.
  apply (debug_only_adds_diagnostics env_ok env_rejected
           (mkOptions None None) sample_credentials).
  - intros path. reflexivity.
  - reflexivity.
  - intros op Hl Hs. reflexivity.
Defined.

(** Where no display is available and [headless] was set to false, both
    launches ask for a window and fail alike: the conditions above hold of
    that browser too. *)
Example no_display_fares_alike_with_a_window :
  fails env_no_display
    (Launch (launchOptions
               (final (run (constructor (with_debug true (mkOptions None (Some false))))
                           env_no_display no_scraper))))
  = fails env_no_display
      (Launch (launchOptions
                 (final (run (constructor (with_debug false (mkOptions None (Some false))))
                             env_no_display no_scraper))))
  /\ forall path, fails env_no_display (Screenshot path) = None.
Proof. split; [reflexivity | intros path; reflexivity]. Qed.

(** * [login()] before [initialize()] *)

(** C10.  On a scraper without a page, [login] throws an [Error] whose
    message is: Page not initialized. Call initialize() first.  It makes no
    call on the browser, so it does not navigate, type or click, takes no
    screenshot, and leaves the scraper as it was; with debug on it prints
    the message, and nothing otherwise. *)
Theorem login_needs_page env this c :
  page this = None ->
  let r := run (login c) env this in
  outcome r = Throw (ErrorObj "Error" "Page not initialized. Call initialize() first.")
  /\ final r = this
  /\ calls (trace r) = []
  /\ captures (trace r) = []
  /\ trace r = if debug this
               then [ConsoleLog ["[DEBUG]"; "Page not initialized. Call initialize() first."]]
               else [].
Proof.
  intros Hpage. destruct this as [b pg d h]. cbn in Hpage. subst pg.
  destruct d; repeat split.
Qed.

Lemma login_needs_page_witness :
  let r := run (login sample_credentials) env_ok no_scraper in
  outcome r = Throw (ErrorObj "Error" "Page not initialized. Call initialize() first.")
  /\ final r = no_scraper
  /\ calls (trace r) = []
  /\ captures (trace r) = []
  /\ trace r = [].
Proof.
  apply (login_needs_page env_ok no_scraper sample_credentials). reflexivity.
Defined.


(** * Further properties of the script *)

(** Membership in the trace of a finished run. *)
Ltac find_in :=
  lazymatch goal with
  | |- In _ (_ :: _) => first [left; reflexivity | right; find_in]
  | |- In _ (_ ++ _) =>
      apply in_or_app; first [left; solve [find_in] | right; find_in]
  end.

(** X1.  Without the debug flag, the constructor, [initialize] and [login]
    write nothing to the console, take no screenshot and subscribe to no
    page event, whatever the browser answers. *)
Theorem quiet_without_debug env options c :
  opt_debug options <> Some true ->
  let r := run (session options c) env no_scraper in
  console (trace r) = []
  /\ captures (trace r) = []
  /\ List.filter (fun op => is_screenshot op || is_page_on op) (calls (trace r)) = [].
Proof.
  intros Hd. destruct options as [[[]|] h]; [by destruct Hd| |]; clear Hd.
  all: cbn zeta; execute.
  all: observe.
  all: repeat split.
Qed.

Lemma quiet_without_debug_witness :
  let r := run (session (mkOptions None None) sample_credentials) env_ok no_scraper in
  console (trace r) = []
  /\ captures (trace r) = []
  /\ List.filter (fun op => is_screenshot op || is_page_on op) (calls (trace r)) = [].
Proof.
  apply (quiet_without_debug env_ok (mkOptions None None) sample_credentials).
  discriminate.
Defined.

(** X2.  On a scraper without a page, when [puppeteer.launch] throws,
    [initialize] throws that same error after the one launch call: no page
    is asked for, no screenshot is taken and the scraper is left as it
    was. *)
Theorem initialize_launch_failure env this e :
  page this = None ->
  fails env (Launch (launchOptions this)) = Some e ->
  let r := run initialize env this in
  outcome r = Throw e
  /\ final r = this
  /\ calls (trace r) = [Launch (launchOptions this)]
  /\ captures (trace r) = [].
Proof.
  destruct this as [b pg d h]. cbn [page]. intros ->. cbn zeta.
  destruct d.
  all: unroll; hide_strings; intros Hfail; exec_with ltac:(rewrite ?Hfail).
  all: observe; repeat split.
Qed.

Lemma initialize_launch_failure_witness :
  let r := run initialize env_no_display
               (mkScraper None None true false) in
  outcome r = Throw (ErrorObj "Error" "Failed to launch the browser process")
  /\ final r = mkScraper None None true false
  /\ calls (trace r) = [Launch (launchOptions (mkScraper None None true false))]
  /\ captures (trace r) = [].
Proof.
  apply (initialize_launch_failure env_no_display (mkScraper None None true false)).
  - reflexivity.
  - reflexivity.
Defined.

(** X3.  On a scraper without a page, when the launch succeeds and
    [browser.newPage] throws, [initialize] throws that error, takes no
    screenshot, and leaves the launched browser stored with no page; a
    [close()] that follows calls [browser.close()] on it. *)
Theorem initialize_page_failure_keeps_browser env this e :
  page this = None ->
  fails env (Launch (launchOptions this)) = None ->
  fails env NewPage = Some e ->
  let r := run initialize env this in
  outcome r = Throw e
  /\ browser (final r) = Some {| running := true |}
  /\ page (final r) = None
  /\ captures (trace r) = []
  /\ calls (trace (run close env (final r))) = [BrowserClose].
Proof.
  destruct this as [b pg d h]. cbn [page]. intros ->. cbn zeta.
  destruct d.
  all: unroll; hide_strings; intros Hlaunch Hpage;
    exec_with ltac:(rewrite ?Hlaunch, ?Hpage).
  all: observe; repeat split.
Qed.

Lemma initialize_page_failure_keeps_browser_witness :
  let r := run initialize (env_failing (fun op => match op with NewPage => true | _ => false end)
                             (ErrorObj "Error" "Target closed"))
               (mkScraper None None true false) in
  outcome r = Throw (ErrorObj "Error" "Target closed")
  /\ browser (final r) = Some {| running := true |}
  /\ page (final r) = None
  /\ captures (trace r) = []
  /\ calls (trace (run close (env_failing (fun op => match op with NewPage => true | _ => false end)
                             (ErrorObj "Error" "Target closed")) (final r))) = [BrowserClose].
Proof.
  apply (initialize_page_failure_keeps_browser
           (env_failing (fun op => match op with NewPage => true | _ => false end)
              (ErrorObj "Error" "Target closed"))
           (mkScraper None None true false)).
  - reflexivity.
  - reflexivity.
  - reflexivity.
Defined.

(** X4.  When the launch and [newPage] succeed, [initialize] returns; its
    calls are the launch with the scraper's launch options, [newPage],
    [setDefaultTimeout(30000)] and, with debug on only, the five
    subscriptions console, pageerror, error, request, response, in that
    order; the browser is stored and no screenshot is taken. *)
Theorem initialize_success env this :
  fails env (Launch (launchOptions this)) = None ->
  fails env NewPage = None ->
  let r := run initialize env this in
  outcome r = Ok tt
  /\ calls (trace r) = initialize_calls this
  /\ browser (final r) = Some {| running := true |}
  /\ registered (final r) = (if debug this then debug_listeners else [])
  /\ captures (trace r) = [].
Proof.
  destruct this as [b pg d h]. cbn zeta. unfold initialize_calls, debug_listeners.
  destruct d; cbn [debug map app].
  all: unroll; hide_strings; intros Hlaunch Hpage;
    exec_with ltac:(rewrite ?Hlaunch, ?Hpage).
  all: observe; repeat split.
Qed.

Lemma initialize_success_witness :
  let r := run initialize env_ok (mkScraper None None true false) in
  outcome r = Ok tt
  /\ calls (trace r) = initialize_calls (mkScraper None None true false)
  /\ browser (final r) = Some {| running := true |}
  /\ registered (final r) = debug_listeners
  /\ captures (trace r) = [].
Proof.
  apply (initialize_success env_ok (mkScraper None None true false));
    reflexivity.
Defined.

(** X5.  The first call after construction is always the launch, with
    [--start-maximized] and a null viewport.  With debug on it is launched
    with a window, devtools and a slow-down of 50 ms, whatever [headless]
    was set to; otherwise neither key is passed and the browser is
    headless unless [headless] was set to false. *)
Theorem launch_is_headless_only_without_debug env options :
  let r := run (constructor options ;; initialize) env no_scraper in
  exists o rest,
    calls (trace r) = Launch o :: rest
    /\ lo_args o = ["--start-maximized"]
    /\ lo_defaultViewport o = None
    /\ match opt_debug options with
       | Some true =>
           lo_headless o = false /\ lo_devtools o = Some true
           /\ lo_slowMo o = Some 50
       | _ =>
           lo_devtools o = None /\ lo_slowMo o = None
           /\ lo_headless o = match opt_headless options with
                              | Some false => false
                              | _ => true
                              end
       end.
Proof.
  destruct options as [[[]|] h]; cbn zeta.
  all: cbn [opt_debug opt_headless].
  all: execute; observe.
  all: eexists; eexists; split; [reflexivity|]; repeat split.
Qed.

(** What the script prints and how it ends when a variable is missing. *)
Lemma script_incomplete env this penv :
  missingVars penv <> [] ->
  run (script penv) env this
  = mkRes (Exit 1) this
      (ConsoleError ["Error: Missing required environment variables:"]
       :: map (fun x => ConsoleError ["- " +:+ x]) (missingVars penv)
       ++ [ConsoleError [nl +:+ "Please copy .env.example to .env and fill in your credentials"];
           ProcessExit 1]).
Proof.
  intros Hmiss. unfold run, script.
  destruct (missingVars penv) as [|m ms] eqn:Hms; [by destruct Hmiss|].
  cbn [length Nat.ltb Nat.leb].
  cbv beta iota delta [bind console_error emit].
  rewrite (forEach_emits env this (m :: ms) _
             (fun x => ConsoleError ["- " +:+ x])) by reflexivity.
  reflexivity.
Qed.


(** X6.  When a required variable is missing, the script exits with
    status 1 and the lines it prints name exactly the missing ones: a
    variable is named if and only if it is one of the three required and
    is unset or empty. *)
Theorem validation_names_exactly_the_missing penv env varName :
  missingVars penv <> [] ->
  let r := run (script penv) env no_scraper in
  outcome r = Exit 1
  /\ (In (ConsoleError ["- " +:+ varName]) (trace r)
      <-> In varName requiredEnvVars /\ truthy (penv !! varName) = false).
Proof.
  intros Hmiss r. subst r. rewrite (script_incomplete env no_scraper penv Hmiss).
  cbn [outcome trace]. split; [reflexivity|].
  assert (Hchar : In varName (missingVars penv)
                  <-> In varName requiredEnvVars /\ truthy (penv !! varName) = false).
  { unfold missingVars. rewrite filter_In.
    destruct (truthy (penv !! varName)); cbn; intuition congruence. }
  rewrite <- Hchar. split.
  - intros [Hhead|Hin]; [discriminate Hhead|].
    apply in_app_or in Hin as [Hin|Hin].
    + apply in_map_iff in Hin as (x & Heq & Hx).
      injection Heq as Heq. cbv [String.append] in Heq. congruence.
    + destruct Hin as [Hfoot|[Hexit|[]]]; [discriminate Hfoot|discriminate Hexit].
  - intros Hin. right. apply in_or_app. left.
    apply (in_map (fun x => ConsoleError ["- " +:+ x])) in Hin. exact Hin.
Qed.

Lemma validation_names_exactly_the_missing_witness :
  let r := run (script (delete "CREDENTIALS_CODE" sample_penv)) env_ok no_scraper in
  outcome r = Exit 1
  /\ (In (ConsoleError ["- " +:+ "CREDENTIALS_ID"]) (trace r)
      <-> In "CREDENTIALS_ID" requiredEnvVars
          /\ truthy (delete "CREDENTIALS_CODE" sample_penv !! "CREDENTIALS_ID") = false).
Proof.
  apply (validation_names_exactly_the_missing
           (delete "CREDENTIALS_CODE" sample_penv) env_ok "CREDENTIALS_ID").
  vm_compute. discriminate.
Defined.

(** With the three variables set, the script is [main] on their values. *)
Lemma script_complete env this penv :
  (forall varName, In varName requiredEnvVars -> truthy (penv !! varName) = true) ->
  run (script penv) env this = run (main (load_credentials penv)) env this.
Proof.
  intros Hset. unfold run, script.
  assert (Hnone : missingVars penv = []).
  { unfold missingVars, requiredEnvVars. cbn [List.filter].
    rewrite !Hset by (cbn; tauto). reflexivity. }
  rewrite Hnone. reflexivity.
Qed.

(** The run of [main] in which no call fails. *)
Lemma main_success env this c :
  (forall op, fails env op = None) ->
  let r := run (main c) env this in
  outcome r = Ok tt
  /\ driving (trace r)
     = [NewPage; SetDefaultTimeout 30000] ++ login_steps c ++ [BrowserClose]
  /\ browser (final r) = Some {| running := false |}
  /\ launches (trace r) = 1%nat.
Proof.
  intros Hok. cbn zeta. unfold login_steps.
  unroll. hide_strings. exec_with ltac:(rewrite ?Hok).
  observe. repeat split.
Qed.


(** X7.  When the three variables are set and non-empty and no call
    fails, the script returns normally: it launches one browser, opens a
    page, sets the timeout, runs the steps of [login] with the values of
    the environment, and closes the browser, which is left not running. *)
Theorem script_success penv env :
  (forall varName, In varName requiredEnvVars -> truthy (penv !! varName) = true) ->
  (forall op, fails env op = None) ->
  let r := run (script penv) env no_scraper in
  outcome r = Ok tt
  /\ driving (trace r)
     = [NewPage; SetDefaultTimeout 30000]
       ++ login_steps (load_credentials penv) ++ [BrowserClose]
  /\ browser (final r) = Some {| running := false |}
  /\ launches (trace r) = 1%nat.
Proof.
  intros Hset Hok r. subst r. rewrite (script_complete env no_scraper penv Hset).
  apply main_success. exact Hok.
Qed.

Lemma script_success_witness :
  let r := run (script sample_penv) env_ok no_scraper in
  outcome r = Ok tt
  /\ driving (trace r)
     = [NewPage; SetDefaultTimeout 30000]
       ++ login_steps (load_credentials sample_penv) ++ [BrowserClose]
  /\ browser (final r) = Some {| running := false |}
  /\ launches (trace r) = 1%nat.
Proof.
  apply (script_success sample_penv env_ok).
  - intros varName [<-|[<-|[<-|[]]]]; vm_compute; reflexivity.
  - intros op. reflexivity.
Defined.


(** X9.  With debug on, a [login] that returns has taken the three
    screenshots debug-login-page, debug-credentials-entered and
    debug-after-login, in that order; a [login] that throws has asked for
    a prefix of them and then, last, for debug-error.png. *)
Theorem debug_login_screenshots env this c :
  debug this = true ->
  page this <> None ->
  let r := run (login c) env this in
  let shots := shot_paths (calls (trace r)) in
  (outcome r = Ok tt -> shots = debug_shots)
  /\ (forall e, outcome r = Throw e ->
         exists k, shots = take k debug_shots ++ ["debug-error.png"]).
Proof.
  destruct this as [b [p|] d h]; cbn [debug page]; intros -> Hpage;
    [clear Hpage|by destruct Hpage].
  destruct p as [timeout ls fs sh]. cbn zeta. unfold debug_shots.
  execute; observe; cbn [shot_paths].
  all: split; [first [reflexivity | intros; discriminate]|].
  all: intros e He; try discriminate He.
  all: first [ exists 0%nat; reflexivity | exists 1%nat; reflexivity
             | exists 2%nat; reflexivity | exists 3%nat; reflexivity ].
Qed.

Lemma debug_login_screenshots_witness :
  let r := run (login sample_credentials) env_settle_timeout
               (mkScraper (browser launched) (page launched) true false) in
  let shots := shot_paths (calls (trace r)) in
  (outcome r = Ok tt -> shots = debug_shots)
  /\ (forall e, outcome r = Throw e ->
         exists k, shots = take k debug_shots ++ ["debug-error.png"]).
Proof.
  apply (debug_login_screenshots env_settle_timeout
           (mkScraper (browser launched) (page launched) true false)
           sample_credentials).
  - reflexivity.
  - discriminate.
Defined.

(** X10.  With debug on, when a call in the try block of [login] fails and
    the screenshot debug-error.png cannot be taken either, [login] throws
    the screenshot's error: the error of the step that failed was logged,
    behind the prefix Error during login, but it is lost to the caller. *)
Theorem failed_error_screenshot_replaces_error env this c e' :
  debug this = true ->
  page this <> None ->
  fails env (Screenshot "debug-error.png") = Some e' ->
  (exists op, In op (login_debug_calls c) /\ fails env op <> None) ->
  let r := run (login c) env this in
  outcome r = Throw e'
  /\ exists op e,
       In op (login_debug_calls c)
       /\ fails env op = Some e
       /\ In (ConsoleLog ["[DEBUG]"; "Error during login: " +:+ error_text e])
             (trace r).
Proof.
  destruct this as [b [p|] d h]; cbn [debug page]; intros -> Hpage;
    [clear Hpage|by destruct Hpage].
  destruct p as [timeout ls fs sh]. cbn zeta. unfold login_debug_calls.
  unroll. hide_strings. intros Hshot Hstep.
  revert Hstep. exec_with ltac:(rewrite ?Hshot).
  all: clear Hshot; intros Hstep.
  all: try (split;
            [ reflexivity
            | match goal with
              | H : fails _ ?op = Some ?t |- _ =>
                  exists op, t; split; [cbn [In]; tauto|]; split; [exact H|find_in]
              end ]).
  destruct Hstep as (op & Hin & Hne). exfalso. cbn [In] in Hin.
  repeat (destruct Hin as [<-|Hin]; [congruence|]). exact Hin.
Qed.

Lemma failed_error_screenshot_replaces_error_witness :
  let r := run (login sample_credentials) env_goto_timeout_no_screenshot
               (mkScraper (browser launched) (page launched) true false) in
  outcome r = Throw (ErrorObj "Error" "EACCES: permission denied")
  /\ exists op e,
       In op (login_debug_calls sample_credentials)
       /\ fails env_goto_timeout_no_screenshot op = Some e
       /\ In (ConsoleLog ["[DEBUG]"; "Error during login: " +:+ error_text e])
             (trace r).
Proof.
  apply (failed_error_screenshot_replaces_error env_goto_timeout_no_screenshot
           (mkScraper (browser launched) (page launched) true false)
           sample_credentials).
  - reflexivity.
  - discriminate.
  - reflexivity.
  - exists (Goto login_url "networkidle2" 60000). split.
    + left. reflexivity.
    + discriminate.
Defined.

(** X11.  With debug on and the error screenshot working, a [login] that
    throws [e] has logged the line made of the prefix Error during login
    and the message of [e] (its text, when [e] is not an Error object), has
    written debug-error.png and has logged that it did. *)
Theorem debug_login_failure_is_logged env this c e :
  debug this = true ->
  page this <> None ->
  fails env (Screenshot "debug-error.png") = None ->
  let r := run (login c) env this in
  outcome r = Throw e ->
  In (ConsoleLog ["[DEBUG]"; "Error during login: " +:+ error_text e]) (trace r)
  /\ In (ConsoleLog ["[DEBUG]"; "Error screenshot saved as debug-error.png"]) (trace r)
  /\ exists shown, In (Capture "debug-error.png" shown) (trace r).
Proof.
  destruct this as [b [p|] d h]; cbn [debug page]; intros -> Hpage;
    [clear Hpage|by destruct Hpage].
  destruct p as [timeout ls fs sh]. cbn zeta.
  unroll. hide_strings. intros Hshot. exec_with ltac:(rewrite ?Hshot).
  all: intros He; try discriminate He.
  all: injection He as <-.
  all: split; [find_in|]; split; [find_in | eexists; find_in].
Qed.

Lemma debug_login_failure_is_logged_witness :
  let r := run (login sample_credentials) env_settle_timeout
               (mkScraper (browser launched) (page launched) true false) in
  In (ConsoleLog ["[DEBUG]"; "Error during login: " +:+
         error_text (ErrorObj "TimeoutError" "Navigation timeout of 30000 ms exceeded")])
     (trace r)
  /\ In (ConsoleLog ["[DEBUG]"; "Error screenshot saved as debug-error.png"]) (trace r)
  /\ exists shown, In (Capture "debug-error.png" shown) (trace r).
Proof.
  apply (debug_login_failure_is_logged env_settle_timeout
           (mkScraper (browser launched) (page launched) true false)
           sample_credentials).
  - reflexivity.
  - discriminate.
  - reflexivity.
  - reflexivity.
Defined.

(** The five listeners together hear every kind of page event. *)
Lemma delivered_to_debug_listeners evs :
  delivered true debug_listeners evs
  = map (fun ev => ConsoleLog ["[DEBUG]"; handler_text ev]) evs.
Proof.
  induction evs as [|ev rest IH]; [reflexivity|].
  unfold delivered in *. cbn [flat_map map]. rewrite IH.
  destruct ev; reflexivity.
Qed.


(** X12.  After a successful [initialize] with debug on, every console
    message, page error, error, request and response of the page is logged,
    one line each, in the order they fire; with debug off none is. *)
Theorem debug_listeners_log_every_event env options evs :
  let r := run (constructor options ;; initialize) env no_scraper in
  outcome r = Ok tt ->
  trace (run (deliver evs) env (final r))
  = if debug (final r)
    then map (fun ev => ConsoleLog ["[DEBUG]"; handler_text ev]) evs
    else [].
Proof.
  cbn zeta. unfold run at 2. rewrite deliver_eq. cbn [trace].
  rewrite <- delivered_to_debug_listeners. unfold debug_listeners.
  destruct options as [[[]|] h].
  all: execute.
  all: try (intros; discriminate).
  all: intros _; autorewrite with trace; reflexivity.
Qed.

Lemma debug_listeners_log_every_event_witness :
  trace (run (deliver [EvConsole "ready"; EvRequest "GET" "https://start.telebank.co.il/";
                       EvResponse 200 "https://start.telebank.co.il/"])
             env_ok
             (final (run (constructor (mkOptions (Some true) None) ;; initialize)
                         env_ok no_scraper)))
  = if debug (final (run (constructor (mkOptions (Some true) None) ;; initialize)
                         env_ok no_scraper))
    then map (fun ev => ConsoleLog ["[DEBUG]"; handler_text ev])
           [EvConsole "ready"; EvRequest "GET" "https://start.telebank.co.il/";
            EvResponse 200 "https://start.telebank.co.il/"]
    else [].
Proof.
  apply (debug_listeners_log_every_event env_ok (mkOptions (Some true) None)).
  reflexivity.
Defined.

(** X13.  [initialize], [login] and [close] never change the debug and
    headless flags; [login] never changes the stored browser and [close]
    never changes the stored page. *)
Theorem methods_keep_the_flags env this c :
  let i := run initialize env this in
  let l := run (login c) env this in
  let k := run close env this in
  (debug (final i) = debug this /\ headless (final i) = headless this)
  /\ (debug (final l) = debug this /\ headless (final l) = headless this
      /\ browser (final l) = browser this)
  /\ (debug (final k) = debug this /\ headless (final k) = headless this
      /\ page (final k) = page this).
Proof.
  destruct this as [b pg d h]. cbn zeta. cbn [debug headless browser page].
  split; [|split].
  - destruct d, pg as [[timeout ls fs sh]|].
    all: execute; split; reflexivity.
  - destruct d, pg as [[timeout ls fs sh]|].
    all: execute; repeat split.
  - destruct b; execute; repeat split.
Qed.
